(** * ipa_dnsrecord: reconciliation of one FreeIPA DNS record

    A shallow embedding of [lib/ansible/modules/identity/ipa/ipa_dnsrecord.py]
    and the properties of its reconciler.

    Python dictionaries with string keys are [gmap string value]; a remote
    call either raises or returns, and every call that reaches the transport
    is recorded, in order, together with what came back. *)

From stdpp Require Import gmap strings list fin_maps.

Open Scope string_scope.

(** ** Python values *)

(** The values found in request items and in the records the server
    returns: a string, or a list of strings (the server reports attributes
    as lists). *)
Inductive value :=
| VStr (s : string)
| VList (l : list string).

#[export] Instance value_eq_dec : EqDecision value.
Proof. solve_decision. Defined.

(** What [_post_json] hands back: Python's [None], or a dictionary. *)
Abbreviation pyobj := (option (gmap string value)).

(** Truth value of a Python [str]: only the empty string is falsy. *)
Definition str_truthy (s : string) : bool :=
  match s with
  | EmptyString => false
  | String _ _ => true
  end.

(** Truth value of what a find returns: [None] and [{}] are falsy. *)
Definition truthy (o : pyobj) : bool :=
  match o with
  | None => false
  | Some d => (0 <? size d)%nat
  end.

(** An exception carries its message; [str] is Python's [str(e)]. *)
Inductive exn := Exception (msg : string).

Definition str (e : exn) : string :=
  match e with Exception msg => msg end.

(** ** Remote calls *)

Inductive request :=
| Login (username password : string)
| PostJson (method name : string) (item : gmap string value).

#[export] Instance request_eq_dec : EqDecision request.
Proof. solve_decision. Defined.

(** A call is the request sent and what came back: an exception, or the
    returned value ([login] returns [None]). *)
Definition call : Type := request * (exn + pyobj).

Definition ok (c : call) : bool :=
  match c.2 with
  | inl _ => false
  | inr _ => true
  end.

Definition requests (l : list call) : list request := map fst l.

Definition mutating_method (method : string) : bool :=
  (method =? "dnsrecord_add") || (method =? "dnsrecord_mod")
  || (method =? "dnsrecord_del").

Definition is_mutating (r : request) : bool :=
  match r with
  | Login _ _ => false
  | PostJson method _ _ => mutating_method method
  end.

Definition is_find (r : request) : bool :=
  match r with
  | Login _ _ => false
  | PostJson method _ _ => method =? "dnsrecord_find"
  end.

(** The mutating requests among the calls issued, in order. *)
Definition mutations (l : list call) : list request :=
  List.filter is_mutating (requests l).

(** The find requests among the calls issued, in order. *)
Definition finds (l : list call) : list request :=
  List.filter is_find (requests l).

(** ** The transport of [IPAClient]

    [ansible.module_utils.ipa.IPAClient] supplies [login] and [_post_json];
    they talk to the server. The server is a state of some type [S] and the
    two methods are taken as parameters: a call may raise or return, and
    may change the server. *)
Class Transport (S : Type) := {
  transport_login : string → string → S → (exn + ()) * S;
  transport_post_json :
    string → string → gmap string value → S → (exn + pyobj) * S
}.

(** ** Running client code

    A computation is run on a server state and yields its result (or the
    exception raised), the server state it leaves, and the calls issued. *)
Record run (S A : Type) := Run {
  result : exn + A;
  server : S;
  calls : list call
}.
Arguments Run {S A}.
Arguments result {S A}.
Arguments server {S A}.
Arguments calls {S A}.

Definition M (S A : Type) : Type := S → run S A.

Definition ret {S A} (a : A) : M S A :=
  λ s, Run (inr a) s [].

Definition bind {S A B} (m : M S A) (k : A → M S B) : M S B :=
  λ s,
    match m s with
    | Run (inl e) s' l => Run (inl e) s' l
    | Run (inr a) s' l =>
        match k a s' with
        | Run r s'' l' => Run r s'' (l ++ l')
        end
    end.

Declare Scope client_scope.
Delimit Scope client_scope with client.
Notation "'do' x <- c1 ; c2" := (bind c1 (λ x, c2))
  (at level 10, x name, c1 at level 100, c2 at level 200) : client_scope.
Notation "'do_' c1 ; c2" := (bind c1 (λ _, c2))
  (at level 10, c1 at level 100, c2 at level 200) : client_scope.
Open Scope client_scope.

(** Whether every call issued came back without an exception. *)
Definition all_ok (l : list call) : bool := forallb ok l.

(** ** The module's parameters *)

Module Params.
Record t := {
  zone_name : string;
  record_name : string;
  record_type : string;
  record_ip : string;
  state : string;
  ipa_prot : string;
  ipa_host : string;
  ipa_port : Z;
  ipa_user : string;
  ipa_pass : string;
  validate_certs : bool
}.
End Params.

Record AnsibleModule := {
  params : Params.t;
  check_mode : bool
}.

(** [module_dnsrecord], the dictionary [dict(record_type=..., record_ip=...)]
    passed around as [details]. *)
Record dnsrecord_details := {
  record_type : string;
  record_ip : string
}.

(** ** Record model *)

Definition get_dnsrecord_dict (details : dnsrecord_details)
  : gmap string value :=
  let module_dnsrecord : gmap string value := ∅ in
  if (record_type details =? "A") && str_truthy (record_ip details) then
    <["arecord" := VStr (record_ip details)]> module_dnsrecord
  else if (record_type details =? "AAAA") && str_truthy (record_ip details) then
    <["aaaarecord" := VStr (record_ip details)]> module_dnsrecord
  else module_dnsrecord.

(** Modelled from the spec: [IPAClient.get_diff] is defined in
    [ansible.module_utils.ipa]. The spec (4.2): for each [(field, value)]
    wanted, the field is in the diff if the current record is not found, or
    lacks the field, or holds another value; a one-value list and a scalar
    are compared after normalisation. Fields of the current record that are
    not wanted are never in the diff. *)
Definition normalize (v : value) : list string :=
  match v with
  | VStr s => [s]
  | VList l => l
  end.

Definition differs (current : pyobj) (field : string) (v : value) : bool :=
  match current with
  | None => true
  | Some cur =>
      match cur !! field with
      | None => true
      | Some cv => negb (bool_decide (normalize cv = normalize v))
      end
  end.

Definition get_diff (ipa_data : pyobj) (module_data : gmap string value)
  : gmap string value :=
  filter (λ kv, differs ipa_data kv.1 kv.2 = true) module_data.

Definition get_dnsrecord_diff (ipa_dnsrecord : pyobj)
    (module_dnsrecord : dnsrecord_details) : gmap string value :=
  let details := get_dnsrecord_dict module_dnsrecord in
  get_diff ipa_dnsrecord details.

(** ** How an invocation ends *)

(** What the module reports: [module.exit_json(changed=, record=)] or
    [module.fail_json(msg=)]. *)
Inductive outcome :=
| exit_json (changed : bool) (record : pyobj)
| fail_json (msg : string).

(** An invocation of the module: what it reported, the server it left and
    the calls it issued. *)
Record invocation (S : Type) := Invocation {
  reported : outcome;
  left_server : S;
  issued : list call
}.
Arguments Invocation {S}.
Arguments reported {S}.
Arguments left_server {S}.
Arguments issued {S}.

(** ** DNSRecordIPAClient *)

Section Client.
Context {S : Type} `{!Transport S}.

Definition login (username password : string) : M S () :=
  λ s,
    let '(r, s') := transport_login username password s in
    Run r s' [(Login username password,
               match r with inl e => inl e | inr _ => inr None end)].

Definition _post_json (method name : string) (item : gmap string value)
  : M S pyobj :=
  λ s,
    let '(r, s') := transport_post_json method name item s in
    Run r s' [(PostJson method name item, r)].

Definition dnsrecord_find (zone_name record_name : string) : M S pyobj :=
  _post_json "dnsrecord_find" zone_name {["idnsname" := VStr record_name]}.

Definition dnsrecord_add (zone_name record_name : string)
    (details : dnsrecord_details) : M S pyobj :=
  let item : gmap string value := {["idnsname" := VStr record_name]} in
  let item :=
    if record_type details =? "A" then
      <["a_part_ip_address" := VStr (record_ip details)]> item
    else if record_type details =? "AAAA" then
      <["aaaa_part_ip_address" := VStr (record_ip details)]> item
    else item in
  _post_json "dnsrecord_add" zone_name item.

Definition dnsrecord_mod (zone_name record_name : string)
    (details : dnsrecord_details) : M S pyobj :=
  let item := get_dnsrecord_dict details in
  let item := <["idnsname" := VStr record_name]> item in
  _post_json "dnsrecord_mod" zone_name item.

Definition dnsrecord_del (zone_name record_name : string)
    (details : dnsrecord_details) : M S pyobj :=
  let item := get_dnsrecord_dict details in
  let item := <["idnsname" := VStr record_name]> item in
  _post_json "dnsrecord_del" zone_name item.

(** ** The reconciler *)

Definition ensure (module : AnsibleModule) : M S (bool * pyobj) :=
  let zone_name := Params.zone_name (params module) in
  let record_name := Params.record_name (params module) in
  let state := Params.state (params module) in
  do ipa_dnsrecord <- dnsrecord_find zone_name record_name;
  let module_dnsrecord :=
    {| record_type := Params.record_type (params module);
       record_ip := Params.record_ip (params module) |} in
  do changed <-
    (if state =? "present" then
       if negb (truthy ipa_dnsrecord) then
         if negb (check_mode module) then
           do_ dnsrecord_add zone_name record_name module_dnsrecord;
           ret true
         else ret true
       else
         let diff := get_dnsrecord_diff ipa_dnsrecord module_dnsrecord in
         if (0 <? size diff)%nat then
           if negb (check_mode module) then
             do_ dnsrecord_mod zone_name record_name module_dnsrecord;
             ret true
           else ret true
         else ret false
     else
       if truthy ipa_dnsrecord then
         if negb (check_mode module) then
           do_ dnsrecord_del zone_name record_name module_dnsrecord;
           ret true
         else ret true
       else ret false);
  do record <- dnsrecord_find zone_name record_name;
  ret (changed, record).

(** ** Entry point *)

Definition main (module : AnsibleModule) (s : S) : invocation S :=
  match (do_ login (Params.ipa_user (params module))
                   (Params.ipa_pass (params module));
         ensure module) s with
  | Run (inr (changed, record)) s' l =>
      Invocation (exit_json changed record) s' l
  | Run (inl e) s' l => Invocation (fail_json (str e)) s' l
  end.

End Client.

(** ** A directory server to run the client against

    An in-memory server with the behaviour the client relies on: records
    are looked up by zone and name, an add stores the address under the
    storage field of its type, a modify overwrites the address fields it is
    given, a delete removes the record. It is used to run the reconciler on
    concrete inputs. *)
Module FakeIPA.

Record t := {
  directory : gmap (string * string) (gmap string value);
  admin_password : string
}.

Definition as_list (v : value) : value := VList (normalize v).

(** The record stored for an add request. *)
Definition stored (name : string) (item : gmap string value)
  : gmap string value :=
  let r : gmap string value := {["idnsname" := VList [name]]} in
  let r := match item !! "a_part_ip_address" with
           | Some v => <["arecord" := as_list v]> r
           | None => r
           end in
  match item !! "aaaa_part_ip_address" with
  | Some v => <["aaaarecord" := as_list v]> r
  | None => r
  end.

(** The record left by a modify request. *)
Definition modified (name : string) (item r : gmap string value)
  : gmap string value :=
  let r := <["idnsname" := VList [name]]> r in
  let r := match item !! "arecord" with
           | Some v => <["arecord" := as_list v]> r
           | None => r
           end in
  match item !! "aaaarecord" with
  | Some v => <["aaaarecord" := as_list v]> r
  | None => r
  end.

Definition serve_login (username password : string) (s : t)
  : (exn + ()) * t :=
  if password =? admin_password s then (inr (), s)
  else (inl (Exception "Invalid credentials"), s).

Definition serve_post_json (method zone : string) (item : gmap string value)
    (s : t) : (exn + pyobj) * t :=
  match item !! "idnsname" with
  | Some (VStr name) =>
      let current := directory s !! (zone, name) in
      if method =? "dnsrecord_find" then
        (inr (Some (default ∅ current)), s)
      else if method =? "dnsrecord_add" then
        match current with
        | Some _ => (inl (Exception "This entry already exists"), s)
        | None =>
            let r := stored name item in
            (inr (Some r),
             {| directory := <[(zone, name) := r]> (directory s);
                admin_password := admin_password s |})
        end
      else if method =? "dnsrecord_mod" then
        match current with
        | Some r =>
            let r' := modified name item r in
            (inr (Some r'),
             {| directory := <[(zone, name) := r']> (directory s);
                admin_password := admin_password s |})
        | None => (inl (Exception "DNS resource record not found"), s)
        end
      else if method =? "dnsrecord_del" then
        match current with
        | Some _ =>
            (inr (Some ∅),
             {| directory := delete (zone, name) (directory s);
                admin_password := admin_password s |})
        | None => (inl (Exception "DNS resource record not found"), s)
        end
      else (inl (Exception "unknown command"), s)
  | _ => (inl (Exception "idnsname is required"), s)
  end.

#[export] Instance transport : Transport t := {
  transport_login := serve_login;
  transport_post_json := serve_post_json
}.

(** A server with no record at all. *)
Definition empty_server : t :=
  {| directory := ∅; admin_password := "topsecret" |}.

(** A server holding a record at the given zone and name. *)
Definition server_with (zone name : string) (r : gmap string value) : t :=
  {| directory := {[(zone, name) := r]}; admin_password := "topsecret" |}.

End FakeIPA.

(** The module of the documentation's first example: ensure that the AAAA
    record [vm-001] of [example.com] is present with address [::1]. *)
Definition example_params (state : string) : Params.t :=
  {| Params.zone_name := "example.com";
     Params.record_name := "vm-001";
     Params.record_type := "AAAA";
     Params.record_ip := "::1";
     Params.state := state;
     Params.ipa_prot := "https";
     Params.ipa_host := "ipa.example.com";
     Params.ipa_port := 443;
     Params.ipa_user := "admin";
     Params.ipa_pass := "topsecret";
     Params.validate_certs := true |}.

Definition example_module (state : string) (check : bool) : AnsibleModule :=
  {| params := example_params state; check_mode := check |}.

Definition vm_001 : gmap string value :=
  {["idnsname" := VList ["vm-001"]; "aaaarecord" := VList ["::1"]]}.

(** ** What is observed of a run *)

(** What the reconciler reports as [changed], when it returns. *)
Definition changed_of {S} (r : run S (bool * pyobj)) : option bool :=
  match result r with
  | inr (changed, _) => Some changed
  | inl _ => None
  end.

(** The details the reconciler builds from the module's parameters. *)
Definition details_of (module : AnsibleModule) : dnsrecord_details :=
  {| record_type := Params.record_type (params module);
     record_ip := Params.record_ip (params module) |}.

(** The find request of a module's zone and record name. *)
Definition find_request (zone_name record_name : string) : request :=
  PostJson "dnsrecord_find" zone_name {["idnsname" := VStr record_name]}.

(** The run issued exactly one mutating call, of the given method, on the
    given zone. *)
Definition issues {S} (R : run S (bool * pyobj)) (method zone : string)
  : Prop :=
  ∃ item, mutations (calls R) = [PostJson method zone item].

(** The run returns the given [changed] when every call it issued
    succeeded, and returns nothing (it raised) otherwise. *)
Definition reports {S} (R : run S (bool * pyobj)) (changed : bool) : Prop :=
  changed_of R = if all_ok (calls R) then Some changed else None.

(** ** More example inputs *)

(** The server holding the record the example module wants. *)
Definition converged_server : FakeIPA.t :=
  FakeIPA.server_with "example.com" "vm-001" vm_001.

(** The server holding the record with another address. *)
Definition stale_server : FakeIPA.t :=
  FakeIPA.server_with "example.com" "vm-001"
    {["idnsname" := VList ["vm-001"]; "aaaarecord" := VList ["::2"]]}.

(** A server that rejects the module's password. *)
Definition rejecting_server : FakeIPA.t :=
  {| FakeIPA.directory := ∅; FakeIPA.admin_password := "rotated" |}.

(** The example module with an empty address. *)
Definition no_ip_module (state : string) : AnsibleModule :=
  {| params :=
       {| Params.zone_name := "example.com";
          Params.record_name := "vm-001";
          Params.record_type := "AAAA";
          Params.record_ip := "";
          Params.state := state;
          Params.ipa_prot := "https";
          Params.ipa_host := "ipa.example.com";
          Params.ipa_port := 443;
          Params.ipa_user := "admin";
          Params.ipa_pass := "topsecret";
          Params.validate_certs := true |};
     check_mode := false |}.

(** * Properties *)

(** ** Proof steps shared by the run lemmas *)

(** Case analysis on what the transport answers to the next call. *)
Ltac step_transport :=
  match goal with
  | |- context [transport_post_json ?m ?z ?i ?s] =>
      let e := fresh "e" in let r := fresh "r" in let s' := fresh "s" in
      let E := fresh "E" in
      destruct (transport_post_json m z i s) as [[e|r] s'] eqn:E
  | |- context [transport_login ?u ?p ?s] =>
      let e := fresh "e" in let r := fresh "r" in let s' := fresh "s" in
      let E := fresh "E" in
      destruct (transport_login u p s) as [[e|r] s'] eqn:E
  end.

Ltac simpl_run :=
  cbn [result server calls fst snd app negb andb orb all_ok forallb ok
       mutations finds requests map List.filter is_mutating is_find
       changed_of record_type record_ip details_of find_request
       reported left_server issued length str];
  change (mutating_method "dnsrecord_find") with false;
  change (mutating_method "dnsrecord_add") with true;
  change (mutating_method "dnsrecord_mod") with true;
  change (mutating_method "dnsrecord_del") with true;
  change ("dnsrecord_find" =? "dnsrecord_find") with true;
  change ("dnsrecord_add" =? "dnsrecord_find") with false;
  change ("dnsrecord_mod" =? "dnsrecord_find") with false;
  change ("dnsrecord_del" =? "dnsrecord_find") with false;
  cbv beta iota.

Ltac unfold_client :=
  unfold main, ensure, dnsrecord_find, dnsrecord_add, dnsrecord_mod,
    dnsrecord_del, bind, ret, _post_json, login.

Ltac run_client := repeat (simpl_run; try step_transport).

(** ** Truth values *)

Lemma str_truthy_false (s : string) : str_truthy s = false ↔ s = "".
Proof. destruct s; cbn; split; congruence. Qed.

Lemma str_truthy_true (s : string) : str_truthy s = true ↔ s ≠ "".
Proof. destruct s; cbn; split; congruence. Qed.

Lemma size_positive_false (d : gmap string value) :
  (0 <? size d)%nat = false ↔ d = ∅.
Proof. rewrite Nat.ltb_ge, <- map_size_empty_iff. lia. Qed.

Lemma size_positive_true (d : gmap string value) :
  (0 <? size d)%nat = true ↔ d ≠ ∅.
Proof.
  rewrite Nat.ltb_lt, <- map_size_non_empty_iff. lia.
Qed.

(** ** The record model *)

Lemma get_dnsrecord_dict_falsy_ip (d : dnsrecord_details) :
  str_truthy (record_ip d) = false → get_dnsrecord_dict d = ∅.
Proof.
  intros H. unfold get_dnsrecord_dict. rewrite H, !andb_false_r. reflexivity.
Qed.

Lemma get_dnsrecord_dict_A (d : dnsrecord_details) :
  record_type d = "A" → str_truthy (record_ip d) = true →
  get_dnsrecord_dict d = {["arecord" := VStr (record_ip d)]}.
Proof.
  intros Ht Hi. unfold get_dnsrecord_dict. rewrite Ht, Hi. reflexivity.
Qed.

Lemma get_dnsrecord_dict_AAAA (d : dnsrecord_details) :
  record_type d = "AAAA" → str_truthy (record_ip d) = true →
  get_dnsrecord_dict d = {["aaaarecord" := VStr (record_ip d)]}.
Proof.
  intros Ht Hi. unfold get_dnsrecord_dict. rewrite Ht, Hi. reflexivity.
Qed.

Lemma get_dnsrecord_dict_other (d : dnsrecord_details) :
  record_type d ≠ "A" → record_type d ≠ "AAAA" → get_dnsrecord_dict d = ∅.
Proof.
  intros HA HAAAA. unfold get_dnsrecord_dict.
  apply String.eqb_neq in HA, HAAAA. rewrite HA, HAAAA. reflexivity.
Qed.

(** C6, as the code has it. The storage-field translation returns
    [{arecord: ip}] for type A and [{aaaarecord: ip}] for type AAAA when
    the address is a non-empty string, and the empty mapping for any other
    type and for an empty address. *)
Theorem get_dnsrecord_dict_spec (d : dnsrecord_details) :
  (record_type d = "A" → record_ip d ≠ "" →
   get_dnsrecord_dict d = {["arecord" := VStr (record_ip d)]})
  ∧ (record_type d = "AAAA" → record_ip d ≠ "" →
     get_dnsrecord_dict d = {["aaaarecord" := VStr (record_ip d)]})
  ∧ (record_type d ≠ "A" → record_type d ≠ "AAAA" →
     get_dnsrecord_dict d = ∅)
  ∧ (record_ip d = "" → get_dnsrecord_dict d = ∅).
Proof.
  repeat split.
  - intros Ht Hi. apply get_dnsrecord_dict_A; [done | by apply str_truthy_true].
  - intros Ht Hi.
    apply get_dnsrecord_dict_AAAA; [done | by apply str_truthy_true].
  - apply get_dnsrecord_dict_other.
  - intros Hi. apply get_dnsrecord_dict_falsy_ip. by apply str_truthy_false.
Qed.

Lemma get_dnsrecord_dict_spec_witness :
  get_dnsrecord_dict {| record_type := "A"; record_ip := "1.2.3.4" |}
  = {["arecord" := VStr "1.2.3.4"]}
  ∧ get_dnsrecord_dict {| record_type := "AAAA"; record_ip := "::1" |}
    = {["aaaarecord" := VStr "::1"]}
  ∧ get_dnsrecord_dict {| record_type := "MX"; record_ip := "::1" |} = ∅
  ∧ get_dnsrecord_dict {| record_type := "AAAA"; record_ip := "" |} = ∅.
Proof.
  split; [| split; [| split]].
  - destruct (get_dnsrecord_dict_spec
                {| record_type := "A"; record_ip := "1.2.3.4" |})
      as (HA & _).
    apply HA; [reflexivity | discriminate].
  - destruct (get_dnsrecord_dict_spec
                {| record_type := "AAAA"; record_ip := "::1" |})
      as (_ & HAAAA & _).
    apply HAAAA; [reflexivity | discriminate].
  - destruct (get_dnsrecord_dict_spec
                {| record_type := "MX"; record_ip := "::1" |})
      as (_ & _ & Hother & _).
    apply Hother; discriminate.
  - destruct (get_dnsrecord_dict_spec
                {| record_type := "AAAA"; record_ip := "" |})
      as (_ & _ & _ & Hempty).
    apply Hempty. reflexivity.
Defined.

(** C6 as stated fails on an empty address: for type A the translation
    returns the empty mapping, not [{arecord: ""}]. *)
Lemma get_dnsrecord_dict_empty_ip_counterexample :
  get_dnsrecord_dict {| record_type := "A"; record_ip := "" |} = ∅
  ∧ get_dnsrecord_dict {| record_type := "A"; record_ip := "" |}
    ≠ {["arecord" := VStr ""]}.
Proof.
  split; [reflexivity |].
  intros H. apply (f_equal (λ m : gmap string value, m !! "arecord")) in H.
  rewrite lookup_singleton_eq in H. discriminate H.
Qed.

(** ** Request items *)

Section Reconciler.
Context {S : Type} `{!Transport S}.

Implicit Types (m : AnsibleModule) (s : S) (d : dnsrecord_details).

(** Each record method issues one call, whatever the transport answers. *)
Lemma dnsrecord_find_calls zone name s :
  requests (calls (dnsrecord_find zone name s)) = [find_request zone name].
Proof. unfold_client. step_transport; reflexivity. Qed.

(** C4. The add operation sends [idnsname] and the address under the
    add-time field of the record type ([a_part_ip_address] for A,
    [aaaa_part_ip_address] for AAAA), whatever the address; for the AAAA
    record [vm-001] of [example.com] with address [::1], present wanted and
    no record found, the reconciler issues that add and, every call
    succeeding, returns [changed = true]. *)
Theorem dnsrecord_add_item zone name ip s :
  requests (calls (dnsrecord_add zone name
                     {| record_type := "A"; record_ip := ip |} s))
  = [PostJson "dnsrecord_add" zone
       {["a_part_ip_address" := VStr ip; "idnsname" := VStr name]}]
  ∧ requests (calls (dnsrecord_add zone name
                       {| record_type := "AAAA"; record_ip := ip |} s))
    = [PostJson "dnsrecord_add" zone
         {["aaaa_part_ip_address" := VStr ip; "idnsname" := VStr name]}]
  ∧ ∀ (p : Params.t) (r0 : pyobj),
      Params.zone_name p = "example.com" →
      Params.record_name p = "vm-001" →
      Params.record_type p = "AAAA" →
      Params.record_ip p = "::1" →
      Params.state p = "present" →
      result (dnsrecord_find "example.com" "vm-001" s) = inr r0 →
      truthy r0 = false →
      let R := ensure {| params := p; check_mode := false |} s in
      mutations (calls R)
      = [PostJson "dnsrecord_add" "example.com"
           {["aaaa_part_ip_address" := VStr "::1";
             "idnsname" := VStr "vm-001"]}]
      ∧ changed_of R = (if all_ok (calls R) then Some true else None).
Proof.
  split; [| split].
  - unfold_client. cbn [record_type record_ip].
    change ("A" =? "A") with true. step_transport; reflexivity.
  - unfold_client. cbn [record_type record_ip].
    change ("AAAA" =? "A") with false. change ("AAAA" =? "AAAA") with true.
    step_transport; reflexivity.
  - intros p r0 Hz Hn Ht Hi Hs Hf Hr0 R; subst R. revert Hf.
    unfold_client. cbn [params check_mode].
    rewrite Hz, Hn, Ht, Hi, Hs.
    change ("present" =? "present") with true.
    change ("AAAA" =? "A") with false. change ("AAAA" =? "AAAA") with true.
    step_transport; simpl_run; intros [= ->].
    rewrite Hr0. run_client; split; reflexivity.
Qed.

(** C5. Modify and delete send the same item: [idnsname] together with the
    storage fields of the details, never an add-time field; the two requests
    differ in the method name only. *)
Theorem dnsrecord_mod_del_item zone name d s :
  ∃ item : gmap string value,
    requests (calls (dnsrecord_mod zone name d s))
    = [PostJson "dnsrecord_mod" zone item]
    ∧ requests (calls (dnsrecord_del zone name d s))
      = [PostJson "dnsrecord_del" zone item]
    ∧ item !! "idnsname" = Some (VStr name)
    ∧ item !! "a_part_ip_address" = None
    ∧ item !! "aaaa_part_ip_address" = None
    ∧ (record_type d = "A" → record_ip d ≠ "" →
       item = {["arecord" := VStr (record_ip d); "idnsname" := VStr name]})
    ∧ (record_type d = "AAAA" → record_ip d ≠ "" →
       item = {["aaaarecord" := VStr (record_ip d); "idnsname" := VStr name]})
    ∧ (∀ field, is_Some (item !! field) →
         field = "idnsname"
         ∨ (field = "arecord" ∧ record_type d = "A")
         ∨ (field = "aaaarecord" ∧ record_type d = "AAAA")).
Proof.
  exists (<["idnsname" := VStr name]> (get_dnsrecord_dict d)).
  split; [| split]; [unfold_client; step_transport; reflexivity .. |].
  split; [apply lookup_insert_eq |].
  assert (Hkeys : ∀ field, is_Some (get_dnsrecord_dict d !! field) →
            (field = "arecord" ∧ record_type d = "A")
            ∨ (field = "aaaarecord" ∧ record_type d = "AAAA")).
  { intros field. unfold get_dnsrecord_dict.
    destruct (record_type d =? "A") eqn:HA;
      destruct (record_type d =? "AAAA") eqn:HAAAA;
      destruct (str_truthy (record_ip d)); cbn [andb].
    all: rewrite ?lookup_insert, ?lookup_empty.
    all: try case_decide.
    all: try (intros [? [=]]).
    all: rewrite ?String.eqb_eq in *; subst; auto. }
  split; [| split; [| split; [| split]]].
  - rewrite lookup_insert_ne by discriminate.
    apply eq_None_not_Some. intros Hsome.
    destruct (Hkeys _ Hsome) as [[[=] _] | [[=] _]].
  - rewrite lookup_insert_ne by discriminate.
    apply eq_None_not_Some. intros Hsome.
    destruct (Hkeys _ Hsome) as [[[=] _] | [[=] _]].
  - intros Ht Hi. rewrite get_dnsrecord_dict_A by (by rewrite ?str_truthy_true).
    apply insert_insert_ne. discriminate.
  - intros Ht Hi.
    rewrite get_dnsrecord_dict_AAAA by (by rewrite ?str_truthy_true).
    apply insert_insert_ne. discriminate.
  - intros field. rewrite lookup_insert. case_decide; [auto |].
    intros Hsome. right. by apply Hkeys.
Qed.

(** ** The transition table *)

(** Start of a proof about [ensure m s] where the initial find is known to
    have returned. *)
Ltac initial_find Hf :=
  revert Hf; unfold issues, reports; unfold_client; unfold details_of;
  step_transport; simpl_run; intros Hf;
  [discriminate Hf | injection Hf as ->].

Ltac state_present Hs :=
  rewrite Hs; change ("present" =? "present") with true; cbv iota.

Ltac state_absent Hs :=
  rewrite Hs; change ("absent" =? "present") with false; cbv iota.

(** C1, for an invocation without check mode. With the initial find
    returning [r0]: present wanted and nothing found, one add; present
    wanted and a matching record found, no mutating call; present wanted and
    a differing record found, one modify; absent wanted and a record found,
    one delete; absent wanted and nothing found, no mutating call. In each
    case [changed] is as the table says whenever the calls succeed. *)
Theorem ensure_transition_table m s (r0 : pyobj) :
  check_mode m = false →
  result (dnsrecord_find (Params.zone_name (params m))
            (Params.record_name (params m)) s) = inr r0 →
  let R := ensure m s in
  let zone := Params.zone_name (params m) in
  let state := Params.state (params m) in
  let diff := get_dnsrecord_diff r0 (details_of m) in
  (state = "present" → truthy r0 = false →
   issues R "dnsrecord_add" zone ∧ reports R true)
  ∧ (state = "present" → truthy r0 = true → diff = ∅ →
     mutations (calls R) = [] ∧ reports R false)
  ∧ (state = "present" → truthy r0 = true → diff ≠ ∅ →
     issues R "dnsrecord_mod" zone ∧ reports R true)
  ∧ (state = "absent" → truthy r0 = true →
     issues R "dnsrecord_del" zone ∧ reports R true)
  ∧ (state = "absent" → truthy r0 = false →
     mutations (calls R) = [] ∧ reports R false).
Proof.
  intros Hc Hf R zone state diff. subst R zone state diff.
  split; [| split; [| split; [| split]]].
  - intros Hs Ht. initial_find Hf. state_present Hs. rewrite Ht, Hc.
    run_client; (split; [eexists |]; reflexivity).
  - intros Hs Ht Hd. initial_find Hf. state_present Hs. rewrite Ht.
    apply size_positive_false in Hd. unfold details_of in Hd. rewrite Hd.
    run_client; (split; reflexivity).
  - intros Hs Ht Hd. initial_find Hf. state_present Hs. rewrite Ht, Hc.
    apply size_positive_true in Hd. unfold details_of in Hd. rewrite Hd.
    run_client; (split; [eexists |]; reflexivity).
  - intros Hs Ht. initial_find Hf. state_absent Hs. rewrite Ht, Hc.
    run_client; (split; [eexists |]; reflexivity).
  - intros Hs Ht. initial_find Hf. state_absent Hs. rewrite Ht.
    run_client; (split; reflexivity).
Qed.

(** C9. Absent wanted and nothing found: no mutating call is issued, with
    or without check mode, and [changed = false] is returned as soon as the
    final find succeeds. *)
Theorem ensure_absent_noop m s (r0 : pyobj) :
  Params.state (params m) = "absent" →
  result (dnsrecord_find (Params.zone_name (params m))
            (Params.record_name (params m)) s) = inr r0 →
  truthy r0 = false →
  mutations (calls (ensure m s)) = []
  ∧ reports (ensure m s) false
  ∧ requests (calls (ensure m s))
    = [find_request (Params.zone_name (params m))
         (Params.record_name (params m));
       find_request (Params.zone_name (params m))
         (Params.record_name (params m))].
Proof.
  intros Hs Hf Ht. initial_find Hf. state_absent Hs. rewrite Ht.
  run_client; (split; [| split]; reflexivity).
Qed.

(** ** An empty address *)

Lemma get_diff_nothing_wanted (ipa_data : pyobj) : get_diff ipa_data ∅ = ∅.
Proof. unfold get_diff. apply map_filter_empty. Qed.

(** C10. With a falsy (empty) address the storage fields are empty for
    every record type, hence so is the diff against any record: when a
    record exists and present is wanted, no modify is issued and [changed]
    is false; when a record exists and absent is wanted, the delete item
    holds [idnsname] only. *)
Theorem falsy_record_ip m s (r0 : pyobj) :
  str_truthy (Params.record_ip (params m)) = false →
  result (dnsrecord_find (Params.zone_name (params m))
            (Params.record_name (params m)) s) = inr r0 →
  truthy r0 = true →
  let R := ensure m s in
  get_dnsrecord_dict (details_of m) = ∅
  ∧ (∀ ipa_dnsrecord, get_dnsrecord_diff ipa_dnsrecord (details_of m) = ∅)
  ∧ (Params.state (params m) = "present" →
     mutations (calls R) = [] ∧ reports R false)
  ∧ (Params.state (params m) = "absent" → check_mode m = false →
     mutations (calls R)
     = [PostJson "dnsrecord_del" (Params.zone_name (params m))
          {["idnsname" := VStr (Params.record_name (params m))]}]).
Proof.
  intros Hip Hf Ht R. subst R.
  assert (Hdict : get_dnsrecord_dict (details_of m) = ∅)
    by (by apply get_dnsrecord_dict_falsy_ip).
  assert (Hdiff : ∀ r, get_dnsrecord_diff r (details_of m) = ∅).
  { intros r. unfold get_dnsrecord_diff. rewrite Hdict.
    apply get_diff_nothing_wanted. }
  split; [exact Hdict | split; [exact Hdiff | split]].
  - intros Hs. specialize (Hdiff r0). apply size_positive_false in Hdiff.
    revert Hdiff. initial_find Hf. intros Hdiff.
    state_present Hs. rewrite Ht, Hdiff.
    run_client; (split; reflexivity).
  - intros Hs Hc. revert Hdict. initial_find Hf. intros Hdict.
    state_absent Hs. rewrite Ht, Hc, Hdict.
    run_client; reflexivity.
Qed.

(** ** Check mode *)

(** C2, as the code has it. Where the invocation without check mode issues
    a mutating call, the invocation in check mode issues none and decides
    [changed = true] just the same; it still issues the second find and
    returns what that find returns, which is the result of the first find
    whenever a find leaves the server as it was. *)
Theorem ensure_check_mode (p : Params.t) s :
  let dry := ensure {| params := p; check_mode := true |} s in
  let wet := ensure {| params := p; check_mode := false |} s in
  let find := find_request (Params.zone_name p) (Params.record_name p) in
  mutations (calls wet) ≠ [] →
  mutations (calls dry) = []
  ∧ (∀ changed, changed_of wet = Some changed → changed = true)
  ∧ ∃ (r0 : pyobj) (r2 : exn + pyobj),
      calls dry = [(find, inr r0); (find, r2)]
      ∧ result dry = match r2 with
                     | inl e => inl e
                     | inr record => inr (true, record)
                     end
      ∧ (server (dnsrecord_find (Params.zone_name p)
                   (Params.record_name p) s) = s →
         r2 = inr r0).
Proof.
  intros dry wet find. subst dry wet find.
  unfold_client. cbn [params check_mode negb].
  step_transport; simpl_run; [congruence |].
  destruct (Params.state p =? "present");
    destruct (truthy r);
    try destruct (0 <? size _)%nat;
    run_client; intros Hmut; try congruence.
  all: split; [reflexivity |].
  all: split; [intros ? [= <-]; reflexivity || congruence |].
  all: eexists _, _; split; [reflexivity |]; split; [reflexivity |].
  all: intros ->; congruence.
Qed.

(** ** The entry point *)

(** Case analysis on every answer of the transport and every test of the
    reconciler. *)
Ltac step_decision :=
  match goal with
  | |- context [truthy ?r] => destruct (truthy r)
  | |- context [(0 <? size ?d)%nat] => destruct (0 <? size d)%nat
  | |- context [?state =? "present"] => destruct (state =? "present")
  end.

Ltac explore_runs :=
  repeat (simpl_run; first [step_transport | step_decision]); simpl_run.

Ltac split_elem_of H :=
  rewrite ?elem_of_cons, ?elem_of_nil in H;
  repeat match type of H with
         | _ ∨ _ => destruct H as [H | H]
         | False => destruct H
         end.

(** C7, as the code has it. An exception raised by [login] or by any call
    of the reconciler ends the invocation: it is the last call issued, and
    the module reports failure with that exception's message and nothing
    else. [exit_json] is reported exactly when every call succeeded; outside
    check mode, [changed = true] is reported only after a mutating call that
    returned. *)
Theorem main_error_propagation m s :
  let I := main m s in
  (∀ req e, (req, inl e) ∈ issued I →
     reported I = fail_json (str e) ∧ last (issued I) = Some (req, inl e))
  ∧ (∀ changed record, reported I = exit_json changed record →
       all_ok (issued I) = true)
  ∧ (all_ok (issued I) = true →
     ∃ changed record, reported I = exit_json changed record)
  ∧ (check_mode m = false →
     ∀ record, reported I = exit_json true record →
       ∃ req resp, (req, inr resp) ∈ issued I ∧ is_mutating req = true).
Proof.
  intros I. subst I. unfold_client.
  destruct (check_mode m); cbn [negb]; explore_runs.
  all: split; [| split; [| split]].
  all: try (intros req e' Hin; split_elem_of Hin;
            try discriminate Hin; injection Hin as -> ->;
            split; reflexivity).
  all: try (intros ? ? [=]; reflexivity).
  all: try (intros [=]; fail).
  all: try (intros _; eexists _, _; reflexivity).
  all: try (intros [=]; fail).
  all: intros _ record' Hrep; try discriminate Hrep.
  all: eexists _, _; split;
    [ apply list_elem_of_In; cbn [In]; right; right; left; reflexivity
    | reflexivity ].
Qed.

(** C8. The requests of an invocation are, in order, a prefix of: login,
    find, at most one mutating request (an add, a modify or a delete on the
    module's zone), find. The whole chain is issued when no call fails, and
    no call follows one that failed: at most four calls, none repeated on
    failure. *)
Theorem main_call_chain m s :
  let I := main m s in
  let zone := Params.zone_name (params m) in
  let find := find_request zone (Params.record_name (params m)) in
  let auth := Login (Params.ipa_user (params m))
                (Params.ipa_pass (params m)) in
  let mut := mutations (issued I) in
  (length mut ≤ 1)%nat
  ∧ (∀ req, req ∈ mut →
       ∃ method item,
         req = PostJson method zone item
         ∧ (method = "dnsrecord_add" ∨ method = "dnsrecord_mod"
            ∨ method = "dnsrecord_del"))
  ∧ requests (issued I) `prefix_of` auth :: find :: mut ++ [find]
  ∧ (all_ok (issued I) = true →
     requests (issued I) = auth :: find :: mut ++ [find])
  ∧ all_ok (removelast (issued I)) = true
  ∧ (length (issued I) ≤ 4)%nat.
Proof.
  intros I zone find auth mut. subst I zone find auth mut. unfold_client.
  destruct (check_mode m); cbn [negb]; explore_runs.
  all: cbn [removelast all_ok forallb ok snd andb length app find_request].
  all: split; [lia |].
  all: split;
    [ intros req Hin; split_elem_of Hin; subst req; eexists _, _;
      split; first [reflexivity | auto] |].
  all: split; [eexists; reflexivity |].
  all: split; [intros Hok; first [discriminate Hok | reflexivity] |].
  all: split; [reflexivity | lia].
Qed.

(** ** Idempotence *)

Lemma mutations_app (l1 l2 : list call) :
  mutations (l1 ++ l2) = (mutations l1 ++ mutations l2)%list.
Proof. unfold mutations, requests. by rewrite map_app, List.filter_app. Qed.

Lemma dnsrecord_find_mutations zone name s :
  mutations (calls (dnsrecord_find zone name s)) = [].
Proof. unfold mutations. by rewrite dnsrecord_find_calls. Qed.

Lemma dnsrecord_add_mutations zone name d s :
  mutations (calls (dnsrecord_add zone name d s)) ≠ [].
Proof. unfold_client. step_transport; discriminate. Qed.

Lemma dnsrecord_mod_mutations zone name d s :
  mutations (calls (dnsrecord_mod zone name d s)) ≠ [].
Proof. unfold_client. step_transport; discriminate. Qed.

Lemma calls_of_run {A} (c : M S A) s r s' l :
  c s = Run r s' l → result (c s) = r ∧ server (c s) = s' ∧ calls (c s) = l.
Proof. by intros ->. Qed.

Section Idempotence.

(** What the reconciler relies on from the server: a find changes nothing,
    and after an add or a modify that returned, a find returns a record
    that matches the details sent. *)
Hypothesis find_read_only :
  ∀ zone name s, server (dnsrecord_find zone name s) = s.

Hypothesis add_converges :
  ∀ zone name d s r,
    result (dnsrecord_add zone name d s) = inr r →
    ∃ record,
      result (dnsrecord_find zone name
                (server (dnsrecord_add zone name d s))) = inr record
      ∧ truthy record = true
      ∧ get_dnsrecord_diff record d = ∅.

Hypothesis mod_converges :
  ∀ zone name d s r,
    result (dnsrecord_mod zone name d s) = inr r →
    ∃ record,
      result (dnsrecord_find zone name
                (server (dnsrecord_mod zone name d s))) = inr record
      ∧ truthy record = true
      ∧ get_dnsrecord_diff record d = ∅.

(** A find that returned did so without touching the server and would
    return the same again. *)
Lemma find_again zone name s r s' l :
  dnsrecord_find zone name s = Run r s' l →
  s' = s ∧ dnsrecord_find zone name s' = Run r s' l.
Proof.
  intros E. pose proof (find_read_only zone name s) as Hro.
  rewrite E in Hro. cbn in Hro. subst s'. done.
Qed.

(** On a server that already holds a matching record, present wanted is a
    no-op: two finds, nothing else, [changed = false]. *)
Lemma ensure_matching m s (record : pyobj) :
  Params.state (params m) = "present" →
  result (dnsrecord_find (Params.zone_name (params m))
            (Params.record_name (params m)) s) = inr record →
  truthy record = true →
  get_dnsrecord_diff record (details_of m) = ∅ →
  result (ensure m s) = inr (false, record)
  ∧ server (ensure m s) = s
  ∧ mutations (calls (ensure m s)) = [].
Proof.
  intros Hs Hf Ht Hd. unfold ensure, bind, ret.
  destruct (dnsrecord_find _ _ s) as [[e | r0] sa la] eqn:E1;
    cbn in Hf; [discriminate Hf | injection Hf as ->].
  pose proof (dnsrecord_find_mutations (Params.zone_name (params m))
                (Params.record_name (params m)) s) as Hla.
  rewrite E1 in Hla. cbn [calls] in Hla.
  apply find_again in E1 as [-> E1].
  state_present Hs. rewrite Ht. cbn [negb].
  apply size_positive_false in Hd. unfold details_of in Hd. rewrite Hd.
  rewrite E1. cbn [result server calls].
  rewrite !mutations_app, Hla. done.
Qed.

(** After a successful run with present wanted and without check mode, the
    server holds a matching record, which is the record returned. *)
Lemma ensure_present_converges m s changed (record : pyobj) :
  Params.state (params m) = "present" →
  check_mode m = false →
  result (ensure m s) = inr (changed, record) →
  result (dnsrecord_find (Params.zone_name (params m))
            (Params.record_name (params m)) (server (ensure m s)))
  = inr record
  ∧ truthy record = true
  ∧ get_dnsrecord_diff record (details_of m) = ∅
  ∧ (changed = true ↔ mutations (calls (ensure m s)) ≠ []).
Proof.
  intros Hs Hc. unfold ensure, bind, ret.
  set (zone := Params.zone_name (params m)).
  set (name := Params.record_name (params m)).
  set (d := {| record_type := _; record_ip := _ |}).
  change (details_of m) with d.
  pose proof (dnsrecord_find_mutations zone name s) as Hla.
  destruct (dnsrecord_find zone name s) as [[e | r0] sa la] eqn:E1;
    [discriminate |].
  cbn [calls] in Hla. apply find_again in E1 as [-> E1].
  state_present Hs. rewrite Hc. cbn [negb].
  destruct (truthy r0) eqn:Ht; cbn [negb];
    [destruct (0 <? size (get_dnsrecord_diff r0 d))%nat eqn:Hd |].
  - (* a differing record: modify *)
    pose proof (dnsrecord_mod_mutations zone name d s) as Hlb.
    pose proof (mod_converges zone name d s) as Hconv.
    destruct (dnsrecord_mod zone name d s) as [[e | rb] sb lb] eqn:E2;
      [discriminate |].
    cbn [result server calls] in *.
    destruct (Hconv rb eq_refl) as (rec & Hrec & Htr & Hdiff).
    destruct (dnsrecord_find zone name sb) as [[e | rc] sc lc] eqn:E3;
      [discriminate |].
    cbn [result server calls] in *. injection Hrec as ->.
    apply find_again in E3 as [-> E3]. rewrite E3. cbn [result].
    intros [= <- <-]. repeat split; try done.
    intros _. rewrite !mutations_app, Hla.
    destruct (mutations lb); [done | discriminate].
  - (* a matching record: nothing to do *)
    rewrite E1. cbn [result server calls]. intros [= <- <-].
    rewrite E1. cbn [result]. apply size_positive_false in Hd.
    repeat split; try done.
    rewrite !mutations_app, Hla. intros Hne. by destruct Hne.
  - (* no record: add *)
    pose proof (dnsrecord_add_mutations zone name d s) as Hlb.
    pose proof (add_converges zone name d s) as Hconv.
    destruct (dnsrecord_add zone name d s) as [[e | rb] sb lb] eqn:E2;
      [discriminate |].
    cbn [result server calls] in *.
    destruct (Hconv rb eq_refl) as (rec & Hrec & Htr & Hdiff).
    destruct (dnsrecord_find zone name sb) as [[e | rc] sc lc] eqn:E3;
      [discriminate |].
    cbn [result server calls] in *. injection Hrec as ->.
    apply find_again in E3 as [-> E3]. rewrite E3. cbn [result].
    intros [= <- <-]. repeat split; try done.
    intros _. rewrite !mutations_app, Hla.
    destruct (mutations lb); [done | discriminate].
Qed.

(** What a first run with present wanted and without check mode did,
    read off the answer to its initial find. *)
Lemma ensure_present_first_run m s changed (record : pyobj) :
  Params.state (params m) = "present" →
  check_mode m = false →
  result (ensure m s) = inr (changed, record) →
  ∃ r0 : pyobj,
    result (dnsrecord_find (Params.zone_name (params m))
              (Params.record_name (params m)) s) = inr r0
    ∧ (truthy r0 = false →
       changed = true
       ∧ issues (ensure m s) "dnsrecord_add" (Params.zone_name (params m)))
    ∧ (truthy r0 = true → get_dnsrecord_diff r0 (details_of m) ≠ ∅ →
       changed = true
       ∧ issues (ensure m s) "dnsrecord_mod" (Params.zone_name (params m)))
    ∧ (truthy r0 = true → get_dnsrecord_diff r0 (details_of m) = ∅ →
       changed = false ∧ mutations (calls (ensure m s)) = []).
Proof.
  intros Hs Hc. unfold issues, details_of. unfold_client. rewrite Hs, Hc.
  change ("present" =? "present") with true. cbn [negb].
  step_transport; simpl_run; [intros Hres; discriminate Hres |].
  destruct (truthy r) eqn:Ht; cbn [negb];
    [destruct (0 <? size _)%nat eqn:Hd;
       [apply size_positive_true in Hd | apply size_positive_false in Hd] |].
  all: run_client; intros Hres; try discriminate Hres.
  all: injection Hres as <- <-; eexists; split; [reflexivity |].
  all: split; [| split]; intros; try congruence.
  all: split; [reflexivity | first [reflexivity | eexists; reflexivity]].
Qed.

(** C3, as the code has it. With present wanted and without check mode, on
    a server where a find changes nothing and an add or modify that
    returned leaves a matching record: once a first run has returned, it
    returned [changed = true] after one add when its initial find found no
    record, [changed = true] after one modify when it found a differing
    record, and [changed = false] without any mutating call when it found a
    matching record; the record it returned matches the wanted details; a
    second run returns [changed = false] and the same record, issues no
    mutating call and leaves the server as the first run left it. *)
Theorem ensure_idempotent m s changed (record : pyobj) :
  Params.state (params m) = "present" →
  check_mode m = false →
  result (ensure m s) = inr (changed, record) →
  let first := ensure m s in
  let second := ensure m (server first) in
  let zone := Params.zone_name (params m) in
  (∃ r0 : pyobj,
     result (dnsrecord_find zone (Params.record_name (params m)) s) = inr r0
     ∧ (truthy r0 = false →
        changed = true ∧ issues first "dnsrecord_add" zone)
     ∧ (truthy r0 = true → get_dnsrecord_diff r0 (details_of m) ≠ ∅ →
        changed = true ∧ issues first "dnsrecord_mod" zone)
     ∧ (truthy r0 = true → get_dnsrecord_diff r0 (details_of m) = ∅ →
        changed = false ∧ mutations (calls first) = []))
  ∧ truthy record = true
  ∧ get_dnsrecord_diff record (details_of m) = ∅
  ∧ result second = inr (false, record)
  ∧ server second = server first
  ∧ mutations (calls second) = []
  ∧ (changed = true ↔ mutations (calls first) ≠ []).
Proof.
  intros Hs Hc Hres first second zone. subst first second zone.
  destruct (ensure_present_converges m s changed record Hs Hc Hres)
    as (Hfind & Htruthy & Hdiff & Hchanged).
  destruct (ensure_matching m (server (ensure m s)) record
              Hs Hfind Htruthy Hdiff) as (Hres2 & Hsrv2 & Hmut2).
  split; [exact (ensure_present_first_run m s changed record Hs Hc Hres) |].
  done.
Qed.

End Idempotence.

End Reconciler.

(** * The reconciler on the in-memory server *)

Module FakeIPAFacts.
Import FakeIPA.

Lemma fake_find zone name (s : FakeIPA.t) :
  dnsrecord_find zone name s
  = Run (inr (Some (default ∅ (directory s !! (zone, name))))) s
      [(find_request zone name,
        inr (Some (default ∅ (directory s !! (zone, name)))))].
Proof.
  unfold dnsrecord_find, _post_json. cbn [transport_post_json transport].
  unfold serve_post_json. rewrite lookup_singleton_eq. reflexivity.
Qed.

Lemma fake_find_read_only zone name (s : FakeIPA.t) :
  server (dnsrecord_find zone name s) = s.
Proof. by rewrite fake_find. Qed.

Lemma stored_truthy name item : truthy (Some (stored name item)) = true.
Proof.
  apply size_positive_true. unfold stored.
  destruct (item !! "a_part_ip_address"), (item !! "aaaa_part_ip_address");
    first [apply insert_non_empty | apply map_non_empty_singleton].
Qed.

Lemma modified_truthy name item r : truthy (Some (modified name item r)) = true.
Proof.
  apply size_positive_true. unfold modified.
  destruct (item !! "arecord"), (item !! "aaaarecord");
    apply insert_non_empty.
Qed.

(** A record that holds the wanted address, as a one-value list, under the
    wanted storage field does not differ from the details. *)
Lemma diff_of_held (r : gmap string value) d :
  (∀ field v, get_dnsrecord_dict d !! field = Some v →
              r !! field = Some (as_list v)) →
  get_dnsrecord_diff (Some r) d = ∅.
Proof.
  intros Hheld. unfold get_dnsrecord_diff, get_diff.
  apply map_empty. intros field. apply map_lookup_filter_None. right.
  intros v Hv. cbn [fst snd differs]. rewrite (Hheld _ _ Hv).
  destruct v; cbn [as_list normalize]; by rewrite bool_decide_eq_true_2.
Qed.

Lemma get_dnsrecord_dict_cases d :
  get_dnsrecord_dict d = ∅
  ∨ (record_type d = "A"
     ∧ get_dnsrecord_dict d = {["arecord" := VStr (record_ip d)]})
  ∨ (record_type d = "AAAA"
     ∧ get_dnsrecord_dict d = {["aaaarecord" := VStr (record_ip d)]}).
Proof.
  unfold get_dnsrecord_dict.
  destruct (record_type d =? "A") eqn:HA;
    [| destruct (record_type d =? "AAAA") eqn:HAAAA];
    destruct (str_truthy (record_ip d)); cbn [andb];
    rewrite ?String.eqb_eq in *; auto.
  destruct (record_type d =? "AAAA"); auto.
Qed.

Lemma fake_add_converges zone name d (s : FakeIPA.t) r :
  result (dnsrecord_add zone name d s) = inr r →
  ∃ record,
    result (dnsrecord_find zone name
              (server (dnsrecord_add zone name d s))) = inr record
    ∧ truthy record = true
    ∧ get_dnsrecord_diff record d = ∅.
Proof.
  unfold dnsrecord_add, _post_json.
  cbn [transport_post_json transport]. unfold serve_post_json.
  set (item := if record_type d =? "A" then _ else _).
  assert (Hname : item !! "idnsname" = Some (VStr name)).
  { subst item. destruct (record_type d =? "A");
      [| destruct (record_type d =? "AAAA")];
      rewrite ?lookup_insert_ne by discriminate;
      apply lookup_singleton_eq. }
  rewrite Hname.
  change ("dnsrecord_add" =? "dnsrecord_find") with false.
  change ("dnsrecord_add" =? "dnsrecord_add") with true. cbv iota.
  destruct (directory s !! (zone, name)) eqn:Hcur;
    cbn [result server]; intros Hres; [discriminate Hres | clear Hres]. rewrite fake_find. cbn [result directory].
  rewrite lookup_insert_eq. cbn [default].
  eexists; split; [reflexivity |]. split; [apply stored_truthy |].
  apply diff_of_held. intros field v.
  destruct (get_dnsrecord_dict_cases d) as [-> | [[Ht ->] | [Ht ->]]].
  - by rewrite lookup_empty.
  - intros [<- <-]%lookup_singleton_Some. subst item. rewrite Ht.
    change ("A" =? "A") with true. cbv iota. by vm_compute.
  - intros [<- <-]%lookup_singleton_Some. subst item. rewrite Ht.
    change ("AAAA" =? "A") with false.
    change ("AAAA" =? "AAAA") with true. cbv iota. by vm_compute.
Qed.

Lemma fake_mod_converges zone name d (s : FakeIPA.t) r :
  result (dnsrecord_mod zone name d s) = inr r →
  ∃ record,
    result (dnsrecord_find zone name
              (server (dnsrecord_mod zone name d s))) = inr record
    ∧ truthy record = true
    ∧ get_dnsrecord_diff record d = ∅.
Proof.
  unfold dnsrecord_mod, _post_json.
  cbn [transport_post_json transport]. unfold serve_post_json.
  rewrite lookup_insert_eq.
  change ("dnsrecord_mod" =? "dnsrecord_find") with false.
  change ("dnsrecord_mod" =? "dnsrecord_add") with false.
  change ("dnsrecord_mod" =? "dnsrecord_mod") with true. cbv iota.
  destruct (directory s !! (zone, name)) as [cur |] eqn:Hcur;
    cbn [result server]; intros Hres; [clear Hres | discriminate Hres]. rewrite fake_find. cbn [result directory].
  rewrite lookup_insert_eq. cbn [default].
  eexists; split; [reflexivity |]. split; [apply modified_truthy |].
  apply diff_of_held. intros field v.
  destruct (get_dnsrecord_dict_cases d) as [-> | [[Ht ->] | [Ht ->]]].
  - by rewrite lookup_empty.
  - intros [<- <-]%lookup_singleton_Some. unfold modified.
    rewrite (lookup_insert_ne _ "idnsname" "arecord") by discriminate.
    rewrite (lookup_insert_ne _ "idnsname" "aaaarecord") by discriminate.
    rewrite lookup_singleton_eq, lookup_singleton_ne by discriminate.
    apply lookup_insert_eq.
  - intros [<- <-]%lookup_singleton_Some. unfold modified.
    rewrite (lookup_insert_ne _ "idnsname" "arecord") by discriminate.
    rewrite (lookup_insert_ne _ "idnsname" "aaaarecord") by discriminate.
    rewrite lookup_singleton_eq, lookup_singleton_ne by discriminate.
    apply lookup_insert_eq.
Qed.

End FakeIPAFacts.

(** * Concrete runs *)

Import FakeIPA.

Ltac compute_premise :=
  first [ vm_compute; reflexivity
        | apply size_positive_true; vm_compute; reflexivity
        | vm_compute; discriminate ].

Lemma ensure_transition_table_witness :
  (issues (ensure (example_module "present" false) empty_server)
     "dnsrecord_add" "example.com"
   ∧ reports (ensure (example_module "present" false) empty_server) true)
  ∧ (mutations (calls (ensure (example_module "present" false)
                         converged_server)) = []
     ∧ reports (ensure (example_module "present" false) converged_server)
         false)
  ∧ (issues (ensure (example_module "present" false) stale_server)
       "dnsrecord_mod" "example.com"
     ∧ reports (ensure (example_module "present" false) stale_server) true)
  ∧ (issues (ensure (example_module "absent" false) converged_server)
       "dnsrecord_del" "example.com"
     ∧ reports (ensure (example_module "absent" false) converged_server)
         true)
  ∧ (mutations (calls (ensure (example_module "absent" false)
                         empty_server)) = []
     ∧ reports (ensure (example_module "absent" false) empty_server) false).
Proof.
  split; [| split; [| split; [| split]]].
  - destruct (ensure_transition_table (example_module "present" false)
                empty_server (Some ∅)) as (Hrow & _);
      [compute_premise .. | apply Hrow; compute_premise].
  - destruct (ensure_transition_table (example_module "present" false)
                converged_server (Some vm_001)) as (_ & Hrow & _);
      [compute_premise .. | apply Hrow; compute_premise].
  - destruct (ensure_transition_table (example_module "present" false)
                stale_server
                (Some {["idnsname" := VList ["vm-001"];
                        "aaaarecord" := VList ["::2"]]}))
      as (_ & _ & Hrow & _);
      [compute_premise .. | apply Hrow; compute_premise].
  - destruct (ensure_transition_table (example_module "absent" false)
                converged_server (Some vm_001)) as (_ & _ & _ & Hrow & _);
      [compute_premise .. | apply Hrow; compute_premise].
  - destruct (ensure_transition_table (example_module "absent" false)
                empty_server (Some ∅)) as (_ & _ & _ & _ & Hrow);
      [compute_premise .. | apply Hrow; compute_premise].
Defined.

(** C1 as stated fails in check mode: present wanted, nothing found, and
    yet no add is issued, while [changed = true] is returned. *)
Lemma ensure_transition_table_counterexample :
  let R := ensure (example_module "present" true) empty_server in
  result (dnsrecord_find "example.com" "vm-001" empty_server)
  = inr (Some ∅)
  ∧ truthy (Some ∅) = false
  ∧ changed_of R = Some true
  ∧ mutations (calls R) = []
  ∧ ¬ issues R "dnsrecord_add" "example.com".
Proof.
  repeat split; try (vm_compute; reflexivity).
  intros [item Hitem]. vm_compute in Hitem. discriminate Hitem.
Qed.

Lemma ensure_absent_noop_witness :
  Params.state (params (example_module "absent" true)) = "absent"
  ∧ mutations (calls (ensure (example_module "absent" true) empty_server))
    = []
  ∧ reports (ensure (example_module "absent" true) empty_server) false.
Proof.
  split; [reflexivity |].
  destruct (ensure_absent_noop (example_module "absent" true) empty_server
              (Some ∅)) as (Hmut & Hrep & _);
    [compute_premise .. | split; assumption].
Defined.

Lemma ensure_check_mode_witness :
  mutations (calls (ensure (example_module "present" false) empty_server))
  ≠ []
  ∧ mutations (calls (ensure (example_module "present" true) empty_server))
    = []
  ∧ changed_of (ensure (example_module "present" true) empty_server)
    = Some true.
Proof.
  assert (Hwet : mutations (calls (ensure (example_module "present" false)
                                     empty_server)) ≠ [])
    by compute_premise.
  split; [exact Hwet |].
  destruct (ensure_check_mode (example_params "present") empty_server Hwet)
    as (Hdry & _ & _). split; [exact Hdry | reflexivity].
Defined.

(** C2 as stated fails on the second find: in check mode, where the
    invocation without check mode would add, the reconciler still issues
    two finds, and the record returned is the answer to the second. *)
Lemma ensure_check_mode_counterexample :
  let dry := ensure (example_module "present" true) empty_server in
  let wet := ensure (example_module "present" false) empty_server in
  let find := find_request "example.com" "vm-001" in
  mutations (calls wet) ≠ []
  ∧ finds (calls dry) = [find; find]
  ∧ finds (calls dry) ≠ [find].
Proof.
  split; [| split]; vm_compute; first [reflexivity | discriminate].
Qed.

Lemma ensure_idempotent_witness :
  let first := ensure (example_module "present" false) empty_server in
  let second := ensure (example_module "present" false) (server first) in
  result first = inr (true, Some vm_001)
  ∧ issues first "dnsrecord_add" "example.com"
  ∧ get_dnsrecord_diff (Some vm_001)
      (details_of (example_module "present" false)) = ∅
  ∧ result second = inr (false, Some vm_001)
  ∧ server second = server first
  ∧ mutations (calls second) = [].
Proof.
  assert (Hfirst : result (ensure (example_module "present" false)
                             empty_server) = inr (true, Some vm_001))
    by compute_premise.
  split; [exact Hfirst |].
  destruct (ensure_idempotent
              FakeIPAFacts.fake_find_read_only
              FakeIPAFacts.fake_add_converges
              FakeIPAFacts.fake_mod_converges
              (example_module "present" false) empty_server true
              (Some vm_001) eq_refl eq_refl Hfirst)
    as ((r0 & Hr0 & Habsent & _) & _ & Hdiff & Hsecond & Hserver & Hmut & _).
  assert (Hfound : r0 = Some ∅)
    by (vm_compute in Hr0; injection Hr0 as <-; reflexivity).
  split; [apply Habsent; rewrite Hfound; reflexivity |].
  split; [exact Hdiff |].
  split; [exact Hsecond | split; [exact Hserver | exact Hmut]].
Defined.

(** C3 as stated fails on a server that already holds the wanted record:
    the first run returns [changed = false]. In check mode it fails on the
    second run: nothing was added, so [changed = true] is returned again. *)
Lemma ensure_idempotent_counterexample :
  let first := ensure (example_module "present" false) converged_server in
  let second := ensure (example_module "present" false) (server first) in
  let dry := ensure (example_module "present" true) empty_server in
  let dry_again := ensure (example_module "present" true) (server dry) in
  changed_of first = Some false
  ∧ ¬ (changed_of first = Some true ∧ changed_of second = Some false
       ∧ server second = server first)
  ∧ changed_of dry = Some true
  ∧ changed_of dry_again = Some true.
Proof.
  split; [vm_compute; reflexivity |].
  split; [| split; vm_compute; reflexivity].
  intros (Hfirst & _). vm_compute in Hfirst. discriminate Hfirst.
Qed.

Lemma dnsrecord_add_item_witness :
  requests (calls (dnsrecord_add "example.com" "vm-001"
                     {| record_type := "A"; record_ip := "10.0.0.1" |}
                     empty_server))
  = [PostJson "dnsrecord_add" "example.com"
       {["a_part_ip_address" := VStr "10.0.0.1";
         "idnsname" := VStr "vm-001"]}]
  ∧ mutations (calls (ensure (example_module "present" false) empty_server))
    = [PostJson "dnsrecord_add" "example.com"
         {["aaaa_part_ip_address" := VStr "::1";
           "idnsname" := VStr "vm-001"]}]
  ∧ changed_of (ensure (example_module "present" false) empty_server)
    = Some true.
Proof.
  destruct (dnsrecord_add_item "example.com" "vm-001" "10.0.0.1"
              empty_server) as (HA & _ & Hscenario).
  split; [exact HA |].
  destruct (Hscenario (example_params "present") (Some ∅))
    as (Hmut & Hchanged); [compute_premise .. |].
  split; [exact Hmut | exact Hchanged].
Defined.

Lemma dnsrecord_mod_del_item_witness :
  requests (calls (dnsrecord_mod "example.com" "vm-001"
                     {| record_type := "AAAA"; record_ip := "::1" |}
                     stale_server))
  = [PostJson "dnsrecord_mod" "example.com"
       {["aaaarecord" := VStr "::1"; "idnsname" := VStr "vm-001"]}]
  ∧ requests (calls (dnsrecord_del "example.com" "vm-001"
                       {| record_type := "AAAA"; record_ip := "::1" |}
                       stale_server))
    = [PostJson "dnsrecord_del" "example.com"
         {["aaaarecord" := VStr "::1"; "idnsname" := VStr "vm-001"]}].
Proof.
  destruct (dnsrecord_mod_del_item "example.com" "vm-001"
              {| record_type := "AAAA"; record_ip := "::1" |} stale_server)
    as (item & Hmod & Hdel & _ & _ & _ & _ & HAAAA & _).
  rewrite Hmod, Hdel.
  rewrite (HAAAA eq_refl) by discriminate. split; reflexivity.
Defined.

Lemma main_error_propagation_witness :
  let failed := main (example_module "present" false) rejecting_server in
  let done := main (example_module "present" false) empty_server in
  (Login "admin" "topsecret", inl (Exception "Invalid credentials"))
  ∈ issued failed
  ∧ reported failed = fail_json "Invalid credentials"
  ∧ reported done = exit_json true (Some vm_001)
  ∧ ∃ req resp, (req, inr resp) ∈ issued done ∧ is_mutating req = true.
Proof.
  intros failed done.
  assert (Hin : (Login "admin" "topsecret",
                 inl (Exception "Invalid credentials")) ∈ issued failed)
    by (apply list_elem_of_In; vm_compute; left; reflexivity).
  assert (Hdone : reported done = exit_json true (Some vm_001))
    by compute_premise.
  split; [exact Hin |].
  destruct (main_error_propagation (example_module "present" false)
              rejecting_server) as (Hfail & _).
  split; [exact (proj1 (Hfail _ _ Hin)) |].
  split; [exact Hdone |].
  destruct (main_error_propagation (example_module "present" false)
              empty_server) as (_ & _ & _ & Hmut).
  exact (Hmut eq_refl _ Hdone).
Defined.

(** C7 as stated fails in check mode: [changed = true] is reported and no
    mutating call was issued at all. *)
Lemma main_error_propagation_counterexample :
  let I := main (example_module "present" true) empty_server in
  reported I = exit_json true (Some ∅)
  ∧ mutations (issued I) = []
  ∧ ¬ ∃ req resp, (req, inr resp) ∈ issued I ∧ is_mutating req = true.
Proof.
  split; [vm_compute; reflexivity | split; [vm_compute; reflexivity |]].
  intros (req & resp & Hin & Hmut). apply list_elem_of_In in Hin.
  vm_compute in Hin. destruct Hin as [[= <- _] | [[= <- _] | [[= <- _] | []]]];
    vm_compute in Hmut; discriminate Hmut.
Qed.

Lemma main_call_chain_witness :
  let I := main (example_module "present" false) stale_server in
  all_ok (issued I) = true
  ∧ requests (issued I)
    = [Login "admin" "topsecret";
       find_request "example.com" "vm-001";
       PostJson "dnsrecord_mod" "example.com"
         {["aaaarecord" := VStr "::1"; "idnsname" := VStr "vm-001"]};
       find_request "example.com" "vm-001"].
Proof.
  intros I.
  assert (Hok : all_ok (issued I) = true) by compute_premise.
  split; [exact Hok |].
  destruct (main_call_chain (example_module "present" false) stale_server)
    as (_ & _ & _ & Hchain & _).
  unfold I in *. rewrite (Hchain Hok). vm_compute. reflexivity.
Defined.

Lemma falsy_record_ip_witness :
  str_truthy (Params.record_ip (params (no_ip_module "present"))) = false
  ∧ mutations (calls (ensure (no_ip_module "present") stale_server)) = []
  ∧ reports (ensure (no_ip_module "present") stale_server) false
  ∧ mutations (calls (ensure (no_ip_module "absent") stale_server))
    = [PostJson "dnsrecord_del" "example.com"
         {["idnsname" := VStr "vm-001"]}].
Proof.
  split; [reflexivity |].
  destruct (falsy_record_ip (no_ip_module "present") stale_server
              (Some {["idnsname" := VList ["vm-001"];
                      "aaaarecord" := VList ["::2"]]}))
    as (_ & _ & Hpresent & _); [compute_premise .. |].
  destruct (falsy_record_ip (no_ip_module "absent") stale_server
              (Some {["idnsname" := VList ["vm-001"];
                      "aaaarecord" := VList ["::2"]]}))
    as (_ & _ & _ & Habsent); [compute_premise .. |].
  destruct (Hpresent eq_refl) as (Hmut & Hrep).
  split; [exact Hmut | split; [exact Hrep | exact (Habsent eq_refl eq_refl)]].
Defined.

(** * Further properties of the reconciler *)

(** Case analysis on every answer of the transport and on every test the
    reconciler makes. *)
Ltac step_test :=
  match goal with
  | |- context [truthy ?r] => destruct (truthy r)
  | |- context [(0 <? size ?d)%nat] => destruct (0 <? size d)%nat
  | |- context [?state =? "present"] => destruct (state =? "present")
  end.

Ltac all_runs :=
  repeat (simpl_run; first [step_transport | step_test]); simpl_run.

Ltac cases_elem_of H :=
  rewrite ?elem_of_cons, ?elem_of_nil in H;
  repeat match type of H with
         | _ ∨ _ => destruct H as [H | H]
         | False => destruct H
         end.

(** The [idnsname] of an item built by a record method. *)
Ltac item_name :=
  repeat match goal with
         | |- context [if ?b then _ else _] => destruct b
         end;
  first [ apply lookup_insert_eq
        | apply lookup_singleton_eq
        | rewrite lookup_insert_ne by discriminate;
          apply lookup_singleton_eq ].

Section Coverage.
Context {S : Type} `{!Transport S}.

Implicit Types (m : AnsibleModule) (s : S) (d : dnsrecord_details).

(** X1. In check mode the reconciler issues finds only, whatever the
    parameters and the server: one find when the first raises, two
    otherwise; never an add, a modify or a delete. *)
Theorem check_mode_only_finds (p : Params.t) s :
  let R := ensure {| params := p; check_mode := true |} s in
  let find := find_request (Params.zone_name p) (Params.record_name p) in
  mutations (calls R) = []
  ∧ requests (calls R)
    = match result (dnsrecord_find (Params.zone_name p)
                      (Params.record_name p) s) with
      | inl _ => [find]
      | inr _ => [find; find]
      end.
Proof.
  intros R find. subst R find. unfold_client. cbn [params check_mode negb].
  all_runs; split; reflexivity.
Qed.

(** X2. Check mode does not change the decision: when the runs with and
    without check mode both return, from the same server, they return the
    same [changed]. *)
Theorem check_mode_same_changed (p : Params.t) s (dry wet : bool) :
  changed_of (ensure {| params := p; check_mode := true |} s) = Some dry →
  changed_of (ensure {| params := p; check_mode := false |} s) = Some wet →
  dry = wet.
Proof.
  unfold_client. cbn [params check_mode negb].
  all_runs; intros Hdry Hwet; congruence.
Qed.

(** X3. Without check mode, [changed] is true exactly when a mutating call
    was issued. *)
Theorem changed_iff_mutated m s (changed : bool) :
  check_mode m = false →
  changed_of (ensure m s) = Some changed →
  changed = true ↔ mutations (calls (ensure m s)) ≠ [].
Proof.
  intros Hc. unfold_client. rewrite Hc. cbn [negb].
  all_runs; intros Hch; try discriminate Hch; injection Hch as <-.
  all: split; intros H; first [done | by destruct H].
Qed.

(** X4. At most one mutating call is issued, and its method follows the
    wanted state: an add or a modify when the state is [present], a delete
    for any other state. *)
Theorem mutation_follows_state m s :
  let R := ensure m s in
  (length (mutations (calls R)) ≤ 1)%nat
  ∧ ∀ req, req ∈ mutations (calls R) →
      ∃ method item,
        req = PostJson method (Params.zone_name (params m)) item
        ∧ (Params.state (params m) = "present" →
           method = "dnsrecord_add" ∨ method = "dnsrecord_mod")
        ∧ (Params.state (params m) ≠ "present" →
           method = "dnsrecord_del").
Proof.
  intros R. subst R. unfold_client.
  destruct (Params.state (params m) =? "present") eqn:Hs;
    [apply String.eqb_eq in Hs | apply String.eqb_neq in Hs].
  all: destruct (check_mode m); cbn [negb]; all_runs.
  all: split; [cbn [length]; lia |].
  all: intros req Hin; cases_elem_of Hin; subst req.
  all: eexists _, _; split; [reflexivity |].
  all: split; intros Hstate; first [done | auto].
Qed.

(** X5. Every request of the reconciler is a record request on the
    module's zone whose item names the module's record: no other zone and no
    other record is ever touched. *)
Theorem requests_stay_on_record m s :
  ∀ req, req ∈ requests (calls (ensure m s)) →
    ∃ method item,
      req = PostJson method (Params.zone_name (params m)) item
      ∧ item !! "idnsname" = Some (VStr (Params.record_name (params m))).
Proof.
  unfold_client. destruct (check_mode m); cbn [negb]; all_runs.
  all: intros req Hin; cases_elem_of Hin; subst req.
  all: eexists _, _; split; [reflexivity |].
  all: item_name.
Qed.

(** X6. When the reconciler returns, every call it issued succeeded, there
    were two or three of them, and the record returned is the answer to
    the last one, the final find. *)
Theorem record_from_final_find m s (changed : bool) (record : pyobj) :
  result (ensure m s) = inr (changed, record) →
  last (calls (ensure m s))
  = Some (find_request (Params.zone_name (params m))
            (Params.record_name (params m)), inr record)
  ∧ all_ok (calls (ensure m s)) = true
  ∧ (2 ≤ length (calls (ensure m s)) ≤ 3)%nat.
Proof.
  unfold_client. destruct (check_mode m); cbn [negb]; all_runs.
  all: intros Hres; try discriminate Hres; injection Hres as <- <-.
  all: cbn [last length]; split; [reflexivity | split; [reflexivity | lia]].
Qed.


(** X9. Login comes first: a record request is only ever issued after a
    login that succeeded, and a login that raises is the only call of the
    invocation, which fails with its message and leaves the server as the
    login left it. *)
Theorem main_login_first m s :
  let I := main m s in
  let user := Params.ipa_user (params m) in
  let pass := Params.ipa_pass (params m) in
  (∀ method zone item resp,
     (PostJson method zone item, resp) ∈ issued I →
     head (issued I) = Some (Login user pass, inr None))
  ∧ (∀ e, result (login user pass s) = inl e →
       issued I = [(Login user pass, inl e)]
       ∧ reported I = fail_json (str e)
       ∧ left_server I = server (login user pass s)).
Proof.
  intros I user pass. subst I user pass. unfold_client.
  destruct (check_mode m); cbn [negb]; all_runs.
  all: split;
    [ intros method zone item resp Hin; cases_elem_of Hin;
      first [discriminate Hin | reflexivity]
    | intros e' He; first [discriminate He | injection He as ->; done] ].
Qed.

(** X10. The add item always names the record and never carries a storage
    field ([arecord], [aaaarecord]); for a record type other than A and AAAA
    it holds [idnsname] only, no address at all. *)
Theorem dnsrecord_add_fields zone name d s :
  ∃ item : gmap string value,
    requests (calls (dnsrecord_add zone name d s))
    = [PostJson "dnsrecord_add" zone item]
    ∧ item !! "idnsname" = Some (VStr name)
    ∧ item !! "arecord" = None
    ∧ item !! "aaaarecord" = None
    ∧ (record_type d ≠ "A" → record_type d ≠ "AAAA" →
       item = {["idnsname" := VStr name]}).
Proof.
  eexists. split; [unfold_client; step_transport; reflexivity |].
  destruct (record_type d =? "A") eqn:HA;
    [| destruct (record_type d =? "AAAA") eqn:HAAAA].
  all: rewrite ?String.eqb_eq in *.
  all: split; [by vm_compute |].
  all: split; [by vm_compute |].
  all: split; [by vm_compute |].
  all: intros HnA HnAAAA; done.
Qed.

Section ReadOnlyFind.

(** A find changes nothing on the server. *)
Hypothesis find_read_only :
  ∀ zone name s, server (dnsrecord_find zone name s) = s.

Lemma find_leaves_server zone name s r s' :
  transport_post_json "dnsrecord_find" zone {["idnsname" := VStr name]} s
  = (r, s') →
  s' = s.
Proof.
  intros E. pose proof (find_read_only zone name s) as Hro.
  unfold dnsrecord_find, _post_json in Hro. rewrite E in Hro. exact Hro.
Qed.

Ltac finds_change_nothing :=
  repeat match goal with
         | E : transport_post_json "dnsrecord_find" _ _ _ = _ |- _ =>
             apply find_leaves_server in E; subst
         end.

(** X7. When finds are read-only, a run that issues no mutating call leaves
    the server exactly as it found it, whether it returns or raises. *)
Theorem unmutated_server_unchanged m s :
  mutations (calls (ensure m s)) = [] →
  server (ensure m s) = s.
Proof.
  unfold_client. destruct (check_mode m); cbn [negb]; all_runs.
  all: intros Hmut; try discriminate Hmut.
  all: finds_change_nothing; reflexivity.
Qed.

(** X12. When finds are read-only, check mode is repeatable: a run in check
    mode leaves the server untouched, so running it again gives the very
    same calls and the very same result. *)
Theorem check_mode_repeatable (p : Params.t) s :
  let dry := {| params := p; check_mode := true |} in
  server (ensure dry s) = s
  ∧ ensure dry (server (ensure dry s)) = ensure dry s.
Proof.
  intros dry. subst dry.
  assert (Hserver :
            server (ensure {| params := p; check_mode := true |} s) = s).
  { unfold_client. cbn [params check_mode negb]. all_runs.
    all: finds_change_nothing; reflexivity. }
  split; [exact Hserver | by rewrite Hserver].
Qed.

(** After a delete that returned, a find returns no record. *)
Hypothesis del_converges :
  ∀ zone name d s r,
    result (dnsrecord_del zone name d s) = inr r →
    ∃ record,
      result (dnsrecord_find zone name
                (server (dnsrecord_del zone name d s))) = inr record
      ∧ truthy record = false.

(** With nothing on the server, a state other than [present] is a no-op. *)
Lemma ensure_nothing_to_remove m s (record : pyobj) :
  Params.state (params m) ≠ "present" →
  result (dnsrecord_find (Params.zone_name (params m))
            (Params.record_name (params m)) s) = inr record →
  truthy record = false →
  result (ensure m s) = inr (false, record)
  ∧ server (ensure m s) = s
  ∧ mutations (calls (ensure m s)) = [].
Proof.
  intros Hs Hf Ht. apply String.eqb_neq in Hs. revert Hf.
  unfold_client. rewrite Hs.
  step_transport; simpl_run; intros Hf; [discriminate Hf |].
  injection Hf as ->. rewrite Ht.
  pose proof (find_leaves_server _ _ _ _ _ E) as ->.
  rewrite E. simpl_run. done.
Qed.

(** After a successful run with a state other than [present] and without
    check mode, the server holds no record, and that is what was returned. *)
Lemma ensure_absent_converges m s changed (record : pyobj) :
  Params.state (params m) ≠ "present" →
  check_mode m = false →
  result (ensure m s) = inr (changed, record) →
  result (dnsrecord_find (Params.zone_name (params m))
            (Params.record_name (params m)) (server (ensure m s)))
  = inr record
  ∧ truthy record = false.
Proof.
  intros Hs Hc. apply String.eqb_neq in Hs. unfold ensure, bind, ret.
  set (zone := Params.zone_name (params m)).
  set (name := Params.record_name (params m)).
  set (d := {| record_type := _; record_ip := _ |}).
  destruct (dnsrecord_find zone name s) as [[e | r0] sa la] eqn:E1;
    [discriminate |].
  apply (find_again find_read_only) in E1 as [-> E1].
  rewrite Hs, Hc. cbn [negb].
  destruct (truthy r0) eqn:Ht.
  - pose proof (del_converges zone name d s) as Hconv.
    destruct (dnsrecord_del zone name d s) as [[e | rb] sb lb] eqn:E2;
      [discriminate |].
    cbn [result server calls] in *.
    destruct (Hconv rb eq_refl) as (rec & Hrec & Hfalsy).
    destruct (dnsrecord_find zone name sb) as [[e | rc] sc lc] eqn:E3;
      [discriminate |].
    cbn [result server calls] in *. injection Hrec as ->.
    apply (find_again find_read_only) in E3 as [-> E3].
    rewrite E3. cbn [result]. intros [= <- <-]. done.
  - rewrite E1. cbn [result server calls]. intros [= <- <-].
    rewrite E1. done.
Qed.

(** X8. Removal is idempotent. With a state other than [present] and
    without check mode, on a server where a find changes nothing and a
    delete that returned leaves no record: once a first run has returned,
    the record it returned is falsy, and a second run returns
    [changed = false] and the same record, issues no mutating call and
    leaves the server as the first run left it. *)
Theorem ensure_absent_idempotent m s changed (record : pyobj) :
  Params.state (params m) ≠ "present" →
  check_mode m = false →
  result (ensure m s) = inr (changed, record) →
  let first := ensure m s in
  let second := ensure m (server first) in
  truthy record = false
  ∧ result second = inr (false, record)
  ∧ server second = server first
  ∧ mutations (calls second) = [].
Proof.
  intros Hs Hc Hres first second. subst first second.
  destruct (ensure_absent_converges m s changed record Hs Hc Hres)
    as (Hfind & Hfalsy).
  destruct (ensure_nothing_to_remove m (server (ensure m s)) record
              Hs Hfind Hfalsy) as (Hres2 & Hsrv2 & Hmut2).
  done.
Qed.

(** Present wanted, nothing found, no check mode: one add. *)
Lemma ensure_adds m s (r0 : pyobj) :
  Params.state (params m) = "present" →
  check_mode m = false →
  result (dnsrecord_find (Params.zone_name (params m))
            (Params.record_name (params m)) s) = inr r0 →
  truthy r0 = false →
  issues (ensure m s) "dnsrecord_add" (Params.zone_name (params m))
  ∧ reports (ensure m s) true.
Proof.
  intros Hs Hc Hf Ht. revert Hf. unfold issues, reports. unfold_client.
  rewrite Hs, Hc. change ("present" =? "present") with true.
  step_transport; simpl_run; intros Hf; [discriminate Hf |].
  injection Hf as ->. rewrite Ht.
  run_client; (split; [eexists |]; reflexivity).
Qed.

(** X15. Removal, then presence: after a run with a state other than
    [present] has returned (no check mode, finds read-only, deletes
    effective), a run that wants the same record present, whatever its type
    and address, issues an add and reports [changed = true]. *)
Theorem absent_then_present_adds m1 m2 s changed (record : pyobj) :
  Params.state (params m1) ≠ "present" →
  check_mode m1 = false →
  Params.state (params m2) = "present" →
  check_mode m2 = false →
  Params.zone_name (params m2) = Params.zone_name (params m1) →
  Params.record_name (params m2) = Params.record_name (params m1) →
  result (ensure m1 s) = inr (changed, record) →
  let again := ensure m2 (server (ensure m1 s)) in
  issues again "dnsrecord_add" (Params.zone_name (params m1))
  ∧ reports again true.
Proof.
  intros Hs1 Hc1 Hs2 Hc2 Hzone Hname Hres again. subst again.
  destruct (ensure_absent_converges m1 s changed record Hs1 Hc1 Hres)
    as (Hfind & Hfalsy).
  rewrite <- Hzone, <- Hname in Hfind. rewrite <- Hzone.
  exact (ensure_adds m2 _ record Hs2 Hc2 Hfind Hfalsy).
Qed.

End ReadOnlyFind.

Section Converging.

Hypothesis find_read_only :
  ∀ zone name s, server (dnsrecord_find zone name s) = s.

Hypothesis add_converges :
  ∀ zone name d s r,
    result (dnsrecord_add zone name d s) = inr r →
    ∃ record,
      result (dnsrecord_find zone name
                (server (dnsrecord_add zone name d s))) = inr record
      ∧ truthy record = true
      ∧ get_dnsrecord_diff record d = ∅.

Hypothesis mod_converges :
  ∀ zone name d s r,
    result (dnsrecord_mod zone name d s) = inr r →
    ∃ record,
      result (dnsrecord_find zone name
                (server (dnsrecord_mod zone name d s))) = inr record
      ∧ truthy record = true
      ∧ get_dnsrecord_diff record d = ∅.

(** X13. Convergence. With present wanted and without check mode, on a
    server where a find changes nothing and an add or modify that returned
    leaves a matching record: the record a run returns is a record (truthy),
    matches the wanted details, and is what a find on the server it leaves
    returns. *)
Theorem ensure_present_returns_match m s changed (record : pyobj) :
  Params.state (params m) = "present" →
  check_mode m = false →
  result (ensure m s) = inr (changed, record) →
  truthy record = true
  ∧ get_dnsrecord_diff record (details_of m) = ∅
  ∧ result (dnsrecord_find (Params.zone_name (params m))
              (Params.record_name (params m)) (server (ensure m s)))
    = inr record.
Proof.
  intros Hs Hc Hres.
  destruct (ensure_present_converges find_read_only add_converges
              mod_converges m s changed record Hs Hc Hres)
    as (Hfind & Htruthy & Hdiff & _).
  done.
Qed.

(** A state other than [present], a record found, no check mode: one
    delete. *)
Lemma ensure_deletes m s (r0 : pyobj) :
  Params.state (params m) ≠ "present" →
  check_mode m = false →
  result (dnsrecord_find (Params.zone_name (params m))
            (Params.record_name (params m)) s) = inr r0 →
  truthy r0 = true →
  issues (ensure m s) "dnsrecord_del" (Params.zone_name (params m))
  ∧ reports (ensure m s) true.
Proof.
  intros Hs Hc Hf Ht. apply String.eqb_neq in Hs. revert Hf.
  unfold issues, reports. unfold_client. rewrite Hs, Hc.
  step_transport; simpl_run; intros Hf; [discriminate Hf |].
  injection Hf as ->. rewrite Ht.
  run_client; (split; [eexists |]; reflexivity).
Qed.

(** X14. Presence, then removal: after a run that wants the record present
    has returned (no check mode, finds read-only, adds and modifies
    effective), a run on the same record with any other state issues a
    delete and reports [changed = true]. *)
Theorem present_then_absent_deletes m1 m2 s changed (record : pyobj) :
  Params.state (params m1) = "present" →
  check_mode m1 = false →
  Params.state (params m2) ≠ "present" →
  check_mode m2 = false →
  Params.zone_name (params m2) = Params.zone_name (params m1) →
  Params.record_name (params m2) = Params.record_name (params m1) →
  result (ensure m1 s) = inr (changed, record) →
  let again := ensure m2 (server (ensure m1 s)) in
  issues again "dnsrecord_del" (Params.zone_name (params m1))
  ∧ reports again true.
Proof.
  intros Hs1 Hc1 Hs2 Hc2 Hzone Hname Hres again. subst again.
  destruct (ensure_present_converges find_read_only add_converges
              mod_converges m1 s changed record Hs1 Hc1 Hres)
    as (Hfind & Htruthy & _).
  rewrite <- Hzone, <- Hname in Hfind. rewrite <- Hzone.
  exact (ensure_deletes m2 _ record Hs2 Hc2 Hfind Htruthy).
Qed.

End Converging.

End Coverage.

(** * Further concrete runs *)

Module FakeIPARemoval.
Import FakeIPA.

Lemma fake_del_converges zone name d (s : FakeIPA.t) r :
  result (dnsrecord_del zone name d s) = inr r →
  ∃ record,
    result (dnsrecord_find zone name
              (server (dnsrecord_del zone name d s))) = inr record
    ∧ truthy record = false.
Proof.
  unfold dnsrecord_del, _post_json.
  cbn [transport_post_json transport]. unfold serve_post_json.
  rewrite lookup_insert_eq.
  change ("dnsrecord_del" =? "dnsrecord_find") with false.
  change ("dnsrecord_del" =? "dnsrecord_add") with false.
  change ("dnsrecord_del" =? "dnsrecord_mod") with false.
  change ("dnsrecord_del" =? "dnsrecord_del") with true. cbv iota.
  destruct (directory s !! (zone, name)) as [cur |] eqn:Hcur;
    cbn [result server]; intros Hres; [clear Hres | discriminate Hres].
  rewrite FakeIPAFacts.fake_find. cbn [result directory].
  rewrite lookup_delete_eq. cbn [default].
  eexists; split; [reflexivity |]. reflexivity.
Qed.

End FakeIPARemoval.

Lemma check_mode_same_changed_witness :
  changed_of (ensure (example_module "present" true) stale_server)
  = Some true
  ∧ changed_of (ensure (example_module "present" false) stale_server)
    = Some true
  ∧ true = true.
Proof.
  assert (Hdry : changed_of (ensure (example_module "present" true)
                               stale_server) = Some true)
    by compute_premise.
  assert (Hwet : changed_of (ensure (example_module "present" false)
                               stale_server) = Some true)
    by compute_premise.
  split; [exact Hdry | split; [exact Hwet |]].
  exact (check_mode_same_changed (example_params "present") stale_server
           true true Hdry Hwet).
Defined.

Lemma changed_iff_mutated_witness :
  changed_of (ensure (example_module "present" false) empty_server)
  = Some true
  ∧ mutations (calls (ensure (example_module "present" false) empty_server))
    ≠ [].
Proof.
  assert (Hch : changed_of (ensure (example_module "present" false)
                              empty_server) = Some true)
    by compute_premise.
  split; [exact Hch |].
  apply (changed_iff_mutated (example_module "present" false) empty_server
           true eq_refl Hch).
  reflexivity.
Defined.

Lemma mutation_follows_state_witness :
  let req := PostJson "dnsrecord_mod" "example.com"
               {["aaaarecord" := VStr "::1"; "idnsname" := VStr "vm-001"]} in
  req ∈ mutations (calls (ensure (example_module "present" false)
                            stale_server))
  ∧ ∃ method item,
      req = PostJson method "example.com" item
      ∧ (method = "dnsrecord_add" ∨ method = "dnsrecord_mod").
Proof.
  intros req.
  assert (Hin : req ∈ mutations (calls (ensure
                                          (example_module "present" false)
                                          stale_server)))
    by (apply list_elem_of_In; vm_compute; left; reflexivity).
  split; [exact Hin |].
  destruct (mutation_follows_state (example_module "present" false)
              stale_server) as (_ & Hmethod).
  destruct (Hmethod req Hin) as (method & item & Hreq & Hpresent & _).
  exists method, item. split; [exact Hreq | exact (Hpresent eq_refl)].
Defined.

Lemma requests_stay_on_record_witness :
  let req := find_request "example.com" "vm-001" in
  req ∈ requests (calls (ensure (example_module "absent" false)
                           converged_server))
  ∧ ∃ method item,
      req = PostJson method "example.com" item
      ∧ item !! "idnsname" = Some (VStr "vm-001").
Proof.
  intros req.
  assert (Hin : req ∈ requests (calls (ensure
                                         (example_module "absent" false)
                                         converged_server)))
    by (apply list_elem_of_In; vm_compute; left; reflexivity).
  split; [exact Hin |].
  exact (requests_stay_on_record (example_module "absent" false)
           converged_server req Hin).
Defined.

Lemma record_from_final_find_witness :
  result (ensure (example_module "present" false) empty_server)
  = inr (true, Some vm_001)
  ∧ last (calls (ensure (example_module "present" false) empty_server))
    = Some (find_request "example.com" "vm-001", inr (Some vm_001)).
Proof.
  assert (Hres : result (ensure (example_module "present" false)
                           empty_server) = inr (true, Some vm_001))
    by compute_premise.
  split; [exact Hres |].
  exact (proj1 (record_from_final_find (example_module "present" false)
                  empty_server true (Some vm_001) Hres)).
Defined.

Lemma unmutated_server_unchanged_witness :
  mutations (calls (ensure (example_module "present" false)
                      converged_server)) = []
  ∧ server (ensure (example_module "present" false) converged_server)
    = converged_server.
Proof.
  assert (Hmut : mutations (calls (ensure (example_module "present" false)
                                     converged_server)) = [])
    by compute_premise.
  split; [exact Hmut |].
  exact (unmutated_server_unchanged FakeIPAFacts.fake_find_read_only
           (example_module "present" false) converged_server Hmut).
Defined.

Lemma ensure_absent_idempotent_witness :
  let first := ensure (example_module "absent" false) converged_server in
  let second := ensure (example_module "absent" false) (server first) in
  result first = inr (true, Some ∅)
  ∧ result second = inr (false, Some ∅)
  ∧ server second = server first
  ∧ mutations (calls second) = [].
Proof.
  assert (Hfirst : result (ensure (example_module "absent" false)
                             converged_server) = inr (true, Some ∅))
    by compute_premise.
  split; [exact Hfirst |].
  destruct (ensure_absent_idempotent
              FakeIPAFacts.fake_find_read_only
              FakeIPARemoval.fake_del_converges
              (example_module "absent" false) converged_server true
              (Some ∅)) as (_ & Hsecond & Hserver & Hmut);
    [discriminate | reflexivity | exact Hfirst |].
  split; [exact Hsecond | split; [exact Hserver | exact Hmut]].
Defined.

Lemma main_login_first_witness :
  let done := main (example_module "present" false) empty_server in
  let failed := main (example_module "present" false) rejecting_server in
  (find_request "example.com" "vm-001", inr (Some ∅)) ∈ issued done
  ∧ head (issued done) = Some (Login "admin" "topsecret", inr None)
  ∧ result (login "admin" "topsecret" rejecting_server)
    = inl (Exception "Invalid credentials")
  ∧ issued failed
    = [(Login "admin" "topsecret", inl (Exception "Invalid credentials"))].
Proof.
  intros done failed.
  assert (Hin : (find_request "example.com" "vm-001", inr (Some ∅))
                ∈ issued done)
    by (apply list_elem_of_In; vm_compute; right; left; reflexivity).
  assert (Hlogin : result (login "admin" "topsecret" rejecting_server)
                   = inl (Exception "Invalid credentials"))
    by reflexivity.
  split; [exact Hin |].
  split.
  - destruct (main_login_first (example_module "present" false) empty_server)
      as (Hfirst & _).
    exact (Hfirst _ _ _ _ Hin).
  - split; [exact Hlogin |].
    destruct (main_login_first (example_module "present" false)
                rejecting_server) as (_ & Hfail).
    exact (proj1 (Hfail _ Hlogin)).
Defined.

Lemma dnsrecord_add_fields_witness :
  requests (calls (dnsrecord_add "example.com" "mail"
                     {| record_type := "MX"; record_ip := "10.0.0.1" |}
                     empty_server))
  = [PostJson "dnsrecord_add" "example.com" {["idnsname" := VStr "mail"]}].
Proof.
  destruct (dnsrecord_add_fields "example.com" "mail"
              {| record_type := "MX"; record_ip := "10.0.0.1" |}
              empty_server) as (item & Hreq & _ & _ & _ & Hother).
  rewrite Hreq, Hother by discriminate. reflexivity.
Defined.

Lemma check_mode_repeatable_witness :
  server (ensure (example_module "present" true) stale_server)
  = stale_server
  ∧ ensure (example_module "present" true)
      (server (ensure (example_module "present" true) stale_server))
    = ensure (example_module "present" true) stale_server.
Proof.
  exact (check_mode_repeatable FakeIPAFacts.fake_find_read_only
           (example_params "present") stale_server).
Defined.

Lemma ensure_present_returns_match_witness :
  result (ensure (example_module "present" false) stale_server)
  = inr (true, Some vm_001)
  ∧ truthy (Some vm_001) = true
  ∧ get_dnsrecord_diff (Some vm_001)
      (details_of (example_module "present" false)) = ∅.
Proof.
  assert (Hres : result (ensure (example_module "present" false)
                           stale_server) = inr (true, Some vm_001))
    by compute_premise.
  split; [exact Hres |].
  destruct (ensure_present_returns_match
              FakeIPAFacts.fake_find_read_only
              FakeIPAFacts.fake_add_converges
              FakeIPAFacts.fake_mod_converges
              (example_module "present" false) stale_server true
              (Some vm_001) eq_refl eq_refl Hres)
    as (Htruthy & Hdiff & _).
  split; [exact Htruthy | exact Hdiff].
Defined.

Lemma present_then_absent_deletes_witness :
  let first := ensure (example_module "present" false) empty_server in
  let again := ensure (example_module "absent" false) (server first) in
  result first = inr (true, Some vm_001)
  ∧ issues again "dnsrecord_del" "example.com"
  ∧ reports again true.
Proof.
  assert (Hres : result (ensure (example_module "present" false)
                           empty_server) = inr (true, Some vm_001))
    by compute_premise.
  split; [exact Hres |].
  apply (present_then_absent_deletes
           FakeIPAFacts.fake_find_read_only
           FakeIPAFacts.fake_add_converges
           FakeIPAFacts.fake_mod_converges
           (example_module "present" false) (example_module "absent" false)
           empty_server true (Some vm_001));
    first [reflexivity | discriminate | exact Hres].
Defined.

Lemma absent_then_present_adds_witness :
  let first := ensure (example_module "absent" false) converged_server in
  let again := ensure (example_module "present" false) (server first) in
  result first = inr (true, Some ∅)
  ∧ issues again "dnsrecord_add" "example.com"
  ∧ reports again true.
Proof.
  assert (Hres : result (ensure (example_module "absent" false)
                           converged_server) = inr (true, Some ∅))
    by compute_premise.
  split; [exact Hres |].
  apply (absent_then_present_adds
           FakeIPAFacts.fake_find_read_only
           FakeIPARemoval.fake_del_converges
           (example_module "absent" false) (example_module "present" false)
           converged_server true (Some ∅));
    first [reflexivity | discriminate | exact Hres].
Defined.
